(** * The root layout of the resume builder (src/app/layout.tsx)

    The file is one React function component, [RootLayout], whose body is a
    single JSX expression.  The development embeds

    - the top-level statements of the file (directive, imports, export),
    - React nodes and elements as the JSX runtime builds them,
    - [RootLayout] itself, as a computation over the ambient state of a
      render that may return an element tree or throw,

    and states what the returned tree looks like. *)

From Stdlib Require Import String List Arith Lia Floats.
Import ListNotations.
Local Open Scope string_scope.
Local Open Scope list_scope.

(** ** The file's top-level statements *)

(** What an identifier brought in by an [import] declaration stands for: the
    export [exported] of the module named [specifier].  A default import is
    the export called "default". *)
Record Binding : Type := mkBinding {
  specifier : string;
  exported : string
}.

Inductive Statement : Type :=
| Directive (text : string)                           (* "use client"; *)
| ImportEffect (from : string)                        (* import "m"; *)
| ImportNamed (name : string) (from : string)         (* import { x } from "m"; *)
| ImportDefault (name : string) (from : string)       (* import X from "m"; *)
| ExportDefaultFunction (name : string).              (* export default function f *)

(** src/app/layout.tsx, lines 1 to 9. *)
Definition layout_tsx : list Statement :=
  [ Directive "use client";
    ImportEffect "globals.css";
    ImportNamed "TopNavBar" "components/TopNavBar";
    ImportNamed "Analytics" "@vercel/analytics/react";
    ImportNamed "Provider" "react-redux";
    ImportNamed "store" "lib/redux/store";
    ImportDefault "Head" "next/head";
    ExportDefaultFunction "RootLayout" ].

(** The binding an identifier of the file resolves to. *)
Fixpoint resolve (file : list Statement) (ident : string) : option Binding :=
  match file with
  | [] => None
  | ImportNamed name from :: rest =>
      if String.eqb name ident then Some (mkBinding from name)
      else resolve rest ident
  | ImportDefault name from :: rest =>
      if String.eqb name ident then Some (mkBinding from "default")
      else resolve rest ident
  | _ :: rest => resolve rest ident
  end.

(** The five identifiers the JSX of [RootLayout] refers to. *)
Definition TopNavBar : Binding := mkBinding "components/TopNavBar" "TopNavBar".
Definition Analytics : Binding := mkBinding "@vercel/analytics/react" "Analytics".
Definition Provider : Binding := mkBinding "react-redux" "Provider".
Definition store : Binding := mkBinding "lib/redux/store" "store".
Definition Head : Binding := mkBinding "next/head" "default".

Section Layout.

(** JavaScript values that the layout never inspects: what a caller's element
    may carry in a prop, the container of a portal, a thrown value. *)
Variable JsValue : Type.

(** Whatever a render can read or write besides its arguments: hook cells,
    the contents of the Redux store, the document, the console. *)
Variable World : Type.

(** ** React nodes *)

Inductive ElementType : Type :=
| Host (tag : string)             (* <html>, <body>, <title>, <meta> *)
| Component (what : Binding)      (* <TopNavBar />, <Provider>, <Head> *)
| Fragment.                       (* <>...</> *)

Inductive PropValue : Type :=
| PString (s : string)            (* lang="en" *)
| PImported (what : Binding)      (* store={store}: the imported object itself *)
| PValue (v : JsValue).

(** [React.ReactNode]: an element, a string, a number, an iterable of nodes,
    a portal, a boolean, [null] or [undefined].  An element keeps its
    children apart from its other props, in source order. *)
#[warnings="-register-all"]
Inductive ReactNode : Type :=
| RNull
| RUndefined
| RBool (b : bool)
| RString (s : string)
| RNumber (x : float)
| RArray (items : list ReactNode)
| RPortal (container : JsValue) (content : list ReactNode)
| RElement (type : ElementType) (key : option string)
           (props : list (string * PropValue)) (content : list ReactNode).

(** JSX without a key. *)
Definition jsx (type : ElementType) (props : list (string * PropValue))
    (content : list ReactNode) : ReactNode :=
  RElement type None props content.

Definition node_type (n : ReactNode) : option ElementType :=
  match n with
  | RElement type _ _ _ => Some type
  | _ => None
  end.

Definition node_props (n : ReactNode) : list (string * PropValue) :=
  match n with
  | RElement _ _ props _ => props
  | _ => []
  end.

Fixpoint lookup_prop (name : string) (props : list (string * PropValue))
    : option PropValue :=
  match props with
  | [] => None
  | (k, v) :: rest => if String.eqb k name then Some v else lookup_prop name rest
  end.

Definition node_prop (name : string) (n : ReactNode) : option PropValue :=
  lookup_prop name (node_props n).

(** The nodes directly below a node. *)
Definition node_children (n : ReactNode) : list ReactNode :=
  match n with
  | RElement _ _ _ content => content
  | RArray items => items
  | RPortal _ content => content
  | _ => []
  end.

(** The node reached from [n] by taking child [i], then child [j], ... *)
Fixpoint subtree_at (path : list nat) (n : ReactNode) : option ReactNode :=
  match path with
  | [] => Some n
  | i :: rest =>
      match nth_error (node_children n) i with
      | Some c => subtree_at rest c
      | None => None
      end
  end.

(** [inside inner outer]: [inner] is [outer] or lies somewhere below it. *)
Inductive inside (inner : ReactNode) : ReactNode -> Prop :=
| inside_here : inside inner inner
| inside_below outer c :
    In c (node_children outer) -> inside inner c -> inside inner outer.

Fixpoint size (n : ReactNode) : nat :=
  match n with
  | RElement _ _ _ content => S (list_sum (map size content))
  | RArray items => S (list_sum (map size items))
  | RPortal _ content => S (list_sum (map size content))
  | _ => 1
  end.

(** ** A tree with one place left open *)

Inductive Shell : Type :=
| Slot
| Around (type : ElementType) (key : option string)
         (props : list (string * PropValue))
         (before : list ReactNode) (inner : Shell) (after : list ReactNode).

Fixpoint plug (k : Shell) (n : ReactNode) : ReactNode :=
  match k with
  | Slot => n
  | Around type key props before inner after =>
      RElement type key props (before ++ plug inner n :: after)
  end.

Fixpoint slot_path (k : Shell) : list nat :=
  match k with
  | Slot => []
  | Around _ _ _ before inner _ => length before :: slot_path inner
  end.

(** Two paths part ways when, after a common start, they take different
    children. *)
Fixpoint part_ways (p q : list nat) : bool :=
  match p, q with
  | i :: p', j :: q' => if Nat.eqb i j then part_ways p' q' else true
  | _, _ => false
  end.

(** ** Calling a component

    A call is run in a state and completes by returning or by throwing.
    [RootLayout] below is what the body of the function does by itself: it
    returns its JSX.  What React's JSX runtime does of its own when an
    element is built (the development build checks keys and logs) is code
    outside this repository and is not described here; the statements on
    [RootLayout] are about the tree it returns. *)

Inductive Completion (A : Type) : Type :=
| Returned (a : A)
| Threw (v : JsValue).

Arguments Returned {A} a.
Arguments Threw {A} v.

Definition Render (A : Type) : Type := World -> Completion A * World.

Definition ret {A : Type} (a : A) : Render A := fun w => (Returned a, w).

(** ** RootLayout *)

Record RootLayoutProps : Type := { children : ReactNode }.

Definition title_text : string :=
  "AI Resume - Free Open-source Resume Builder and Parser".

Definition description_text : string :=
  "AI Resume is a free, open-source, and powerful resume builder that allows anyone to create a modern professional resume in 3 simple steps. For those who have an existing resume, AI Resume also provides a resume parser to help test and confirm its ATS readability.".

(** src/app/layout.tsx, lines 9 to 32. *)
Definition RootLayout (props : RootLayoutProps) : Render ReactNode :=
  let children := children props in
  ret
    (jsx (Host "html") [("lang", PString "en")]
       [ jsx (Component Head) []
           [ jsx (Host "title") [] [RString title_text];
             jsx (Host "meta")
               [("name", PString "description");
                ("content", PString description_text)] [] ];
         jsx (Host "body") []
           [ jsx (Component Provider) [("store", PImported store)]
               [ jsx (Component TopNavBar) [] [];
                 children;
                 jsx (Component Analytics) [] [] ] ] ]).

(** The JSX of [RootLayout] (lines 15 to 30) with [{children}] left open. *)
Definition layout_shell : Shell :=
  Around (Host "html") None [("lang", PString "en")]
    [ jsx (Component Head) []
        [ jsx (Host "title") [] [RString title_text];
          jsx (Host "meta")
            [("name", PString "description");
             ("content", PString description_text)] [] ] ]
    (Around (Host "body") None [] []
       (Around (Component Provider) None [("store", PImported store)]
          [ jsx (Component TopNavBar) [] [] ]
          Slot
          [ jsx (Component Analytics) [] [] ])
       [])
    [].

(** ** Lists and sizes *)

Lemma nth_error_nil_none (A : Type) (i : nat) : nth_error (@nil A) i = None.
Proof. destruct i; reflexivity. Qed.

Lemma nth_error_slot (A : Type) (before after : list A) (x : A) :
  nth_error (before ++ x :: after) (length before) = Some x.
Proof.
  induction before as [|b before IH]; simpl.
  - reflexivity.
  - exact IH.
Qed.

Lemma nth_error_off_slot (A : Type) (before after : list A) (x y : A) (i : nat) :
  i <> length before ->
  nth_error (before ++ x :: after) i = nth_error (before ++ y :: after) i.
Proof.
  revert i.
  induction before as [|b before IH]; intros [|i] Hi; simpl in *.
  - contradiction.
  - reflexivity.
  - reflexivity.
  - apply IH. intro E. apply Hi. now rewrite E.
Qed.

Lemma size_in_sum (c : ReactNode) (l : list ReactNode) :
  In c l -> size c <= list_sum (map size l).
Proof.
  induction l as [|x l IH]; simpl.
  - contradiction.
  - intros [-> | Hin].
    + lia.
    + specialize (IH Hin). lia.
Qed.

Lemma child_is_smaller (c n : ReactNode) :
  In c (node_children n) -> size c < size n.
Proof.
  destruct n; simpl; try contradiction;
    intro Hin; apply size_in_sum in Hin; lia.
Qed.

Lemma subtree_at_size (path : list nat) :
  forall n s, subtree_at path n = Some s -> size s <= size n.
Proof.
  induction path as [|i path IH]; simpl; intros n s H.
  - injection H as <-. lia.
  - destruct (nth_error (node_children n) i) as [c|] eqn:E; [|discriminate].
    apply nth_error_In in E. apply child_is_smaller in E.
    apply IH in H. lia.
Qed.

Lemma proper_subtree_is_smaller (i : nat) (path : list nat) (n s : ReactNode) :
  subtree_at (i :: path) n = Some s -> size s < size n.
Proof.
  simpl.
  destruct (nth_error (node_children n) i) as [c|] eqn:E; [|discriminate].
  intro H. apply subtree_at_size in H.
  apply nth_error_In in E. apply child_is_smaller in E. lia.
Qed.

Lemma no_node_below_itself (i : nat) (path : list nat) (n : ReactNode) :
  subtree_at (i :: path) n <> Some n.
Proof.
  intro H. apply proper_subtree_is_smaller in H. lia.
Qed.

(** A node is none of the nodes smaller than it. *)
Lemma bigger_is_different (n c : ReactNode) :
  size c < size n -> Some n <> Some c.
Proof.
  intros Hlt E. injection E as E. rewrite E in Hlt. lia.
Qed.

Lemma subtree_at_inside (path : list nat) :
  forall n s, subtree_at path n = Some s -> inside s n.
Proof.
  induction path as [|i path IH]; simpl; intros n s H.
  - injection H as <-. constructor.
  - destruct (nth_error (node_children n) i) as [c|] eqn:E; [|discriminate].
    apply inside_below with c.
    + now apply nth_error_In with i.
    + now apply IH.
Qed.

Lemma inside_trans (a b c : ReactNode) :
  inside a b -> inside b c -> inside a c.
Proof.
  intros Hab Hbc.
  induction Hbc as [|outer d Hin _ IH].
  - exact Hab.
  - apply inside_below with d; assumption.
Qed.

Lemma inside_size (s n : ReactNode) : inside s n -> size s <= size n.
Proof.
  induction 1 as [|outer c Hin _ IH].
  - lia.
  - apply child_is_smaller in Hin. lia.
Qed.

(** ** Shells *)

Lemma subtree_at_slot (k : Shell) (n : ReactNode) :
  subtree_at (slot_path k) (plug k n) = Some n.
Proof.
  induction k as [|type key props before inner IH after]; simpl.
  - reflexivity.
  - rewrite nth_error_slot. exact IH.
Qed.

(** What is plugged into a shell is seen only along the path to its slot. *)
Lemma plug_frame (k : Shell) :
  forall (path : list nat) (n1 n2 : ReactNode),
    part_ways path (slot_path k) = true ->
    subtree_at path (plug k n1) = subtree_at path (plug k n2).
Proof.
  induction k as [|type key props before inner IH after];
    intros [|i path] n1 n2; simpl; try discriminate.
  destruct (Nat.eqb_spec i (length before)) as [-> | Hne]; intro H.
  - rewrite !nth_error_slot. now apply IH.
  - now rewrite (nth_error_off_slot _ before after (plug inner n1) (plug inner n2)).
Qed.

(** ** The file *)

(** The identifiers of the JSX are the file's imports. *)
Lemma layout_imports :
  resolve layout_tsx "TopNavBar" = Some TopNavBar /\
  resolve layout_tsx "Analytics" = Some Analytics /\
  resolve layout_tsx "Provider" = Some Provider /\
  resolve layout_tsx "store" = Some store /\
  resolve layout_tsx "Head" = Some Head.
Proof. repeat split. Qed.

(** ** The tree RootLayout returns *)

Lemma RootLayout_plugs_layout_shell (props : RootLayoutProps) (w : World) :
  RootLayout props w = (Returned (plug layout_shell (children props)), w).
Proof. reflexivity. Qed.

Example RootLayout_of_null (w : World) :
  exists tree,
    fst (RootLayout {| children := RNull |} w) = Returned tree /\
    subtree_at [1; 0; 1] tree = Some RNull.
Proof. eexists. split; reflexivity. Qed.

Example RootLayout_of_empty_fragment (w : World) :
  exists tree,
    fst (RootLayout {| children := jsx Fragment [] [] |} w) = Returned tree /\
    subtree_at [1; 0; 1] tree = Some (jsx Fragment [] []) /\
    subtree_at [1; 0; 1; 0] tree = None.
Proof. eexists. repeat split. Qed.

Example RootLayout_of_a_page (w : World) :
  exists tree,
    fst (RootLayout {| children := jsx (Host "main") [] [RString "Home"] |} w)
      = Returned tree /\
    subtree_at [1; 0; 1; 0] tree = Some (RString "Home") /\
    size tree = 11.
Proof. eexists. repeat split. Qed.

(** C1: for every children node, the returned tree holds children directly
    under a Provider element whose store prop is the imported store, the
    Provider and the store being the file's imports from react-redux and
    lib/redux/store. *)
Theorem RootLayout_wraps_children_in_Provider
    (props : RootLayoutProps) (w : World) :
  exists tree provider,
    fst (RootLayout props w) = Returned tree /\
    inside provider tree /\
    node_type provider = Some (Component Provider) /\
    node_prop "store" provider = Some (PImported store) /\
    In (children props) (node_children provider) /\
    resolve layout_tsx "Provider" = Some Provider /\
    resolve layout_tsx "store" = Some store.
Proof.
  eexists. eexists. split; [reflexivity|].
  split.
  - apply (subtree_at_inside [1; 0]). reflexivity.
  - repeat split. simpl. tauto.
Qed.

(** C2: for every children node, the body of the returned tree holds an
    element whose children are, in order, the TopNavBar element and then
    children: the navigation bar is the sibling just before children, and
    both lie inside body. *)
Theorem RootLayout_puts_TopNavBar_before_children
    (props : RootLayoutProps) (w : World) :
  exists tree body parent nav,
    fst (RootLayout props w) = Returned tree /\
    subtree_at [1] tree = Some body /\
    node_type body = Some (Host "body") /\
    In parent (node_children body) /\
    nth_error (node_children parent) 0 = Some nav /\
    nth_error (node_children parent) 1 = Some (children props) /\
    nav = jsx (Component TopNavBar) [] [] /\
    inside nav body /\
    inside (children props) body.
Proof.
  do 4 eexists. split; [reflexivity|].
  split; [reflexivity|]. split; [reflexivity|].
  split; [simpl; left; reflexivity|].
  split; [reflexivity|]. split; [reflexivity|]. split; [reflexivity|].
  split.
  - apply (subtree_at_inside [0; 0]). reflexivity.
  - apply (subtree_at_inside [0; 1]). reflexivity.
Qed.

(** C4: for every children node, the returned tree has a Head element
    (next/head) right under html, and that element holds a title element
    and a meta element whose name is "description". *)
Theorem RootLayout_emits_head_tags
    (props : RootLayoutProps) (w : World) :
  exists tree head title meta,
    fst (RootLayout props w) = Returned tree /\
    In head (node_children tree) /\
    node_type head = Some (Component Head) /\
    resolve layout_tsx "Head" = Some Head /\
    node_children head = [title; meta] /\
    node_type title = Some (Host "title") /\
    node_children title = [RString title_text] /\
    node_type meta = Some (Host "meta") /\
    node_prop "name" meta = Some (PString "description") /\
    node_prop "content" meta = Some (PString description_text).
Proof.
  do 4 eexists. split; [reflexivity|].
  split; [simpl; left; reflexivity|].
  repeat split.
Qed.

(** C6: there is one shell, with a single slot at child 1 of child 0 of
    child 1 of the root, such that for every children node the returned tree
    is that shell with children in the slot: nothing but the slot depends on
    children. *)
Theorem RootLayout_is_a_fixed_shell :
  exists shell : Shell,
    slot_path shell = [1; 0; 1] /\
    forall (props : RootLayoutProps) (w : World),
      fst (RootLayout props w) = Returned (plug shell (children props)).
Proof.
  exists layout_shell.
  split; [reflexivity|].
  intros props w. now rewrite RootLayout_plugs_layout_shell.
Qed.

(** X3: at every path that parts ways with the path to the slot, two calls
    of RootLayout, whatever their children and their states, return the same
    node (or both none): children reaches nothing beside its own place. *)
Lemma RootLayout_frame
    (props1 props2 : RootLayoutProps) (w1 w2 : World) (path : list nat) :
  part_ways path [1; 0; 1] = true ->
  exists tree1 tree2,
    fst (RootLayout props1 w1) = Returned tree1 /\
    fst (RootLayout props2 w2) = Returned tree2 /\
    subtree_at path tree1 = subtree_at path tree2.
Proof.
  intro Hways.
  exists (plug layout_shell (children props1)),
         (plug layout_shell (children props2)).
  rewrite !RootLayout_plugs_layout_shell.
  split; [reflexivity|]. split; [reflexivity|].
  now apply plug_frame.
Qed.

(** Where the returned tree holds a node equal to children: in the slot
    between TopNavBar and Analytics, or at a place that holds this same node
    whatever children is. *)
Lemma RootLayout_children_positions
    (props : RootLayoutProps) (w : World) (tree : ReactNode) (path : list nat) :
  fst (RootLayout props w) = Returned tree ->
  subtree_at path tree = Some (children props) ->
  path = [1; 0; 1] \/
  forall (props' : RootLayoutProps) (w' : World),
    exists tree',
      fst (RootLayout props' w') = Returned tree' /\
      subtree_at path tree' = Some (children props).
Proof.
  intros Hret Hat.
  injection Hret as <-.
  destruct path as [|i path].
  { exfalso. revert Hat. apply bigger_is_different. simpl. lia. }
  destruct i as [|[|i]]; simpl in Hat.
  - (* under Head *)
    right. intros props' w'. eexists. split; [reflexivity|].
    simpl. exact Hat.
  - (* under body *)
    destruct path as [|j path].
    { exfalso. revert Hat. apply bigger_is_different. simpl. lia. }
    destruct j as [|j]; simpl in Hat;
      [|rewrite nth_error_nil_none in Hat; discriminate].
    destruct path as [|k path].
    { exfalso. revert Hat. apply bigger_is_different. simpl. lia. }
    destruct k as [|[|[|k]]]; simpl in Hat.
    + right. intros props' w'. eexists. split; [reflexivity|].
      simpl. exact Hat.
    + destruct path as [|l path]; [left; reflexivity|].
      exfalso. revert Hat. apply no_node_below_itself.
    + right. intros props' w'. eexists. split; [reflexivity|].
      simpl. exact Hat.
    + rewrite nth_error_nil_none in Hat. discriminate.
  - rewrite nth_error_nil_none in Hat. discriminate.
Qed.

(** C7: for every children node, body holds one element, the Provider, whose
    children are exactly the TopNavBar element, children itself and the
    Analytics element, in this order; and the slot between the two is the
    only place of the tree that is filled with children. *)
Theorem RootLayout_renders_children_once
    (props : RootLayoutProps) (w : World) :
  exists tree body provider,
    fst (RootLayout props w) = Returned tree /\
    subtree_at [1] tree = Some body /\
    node_type body = Some (Host "body") /\
    node_children body = [provider] /\
    node_children provider =
      [ jsx (Component TopNavBar) [] [];
        children props;
        jsx (Component Analytics) [] [] ] /\
    subtree_at [1; 0; 1] tree = Some (children props) /\
    forall path : list nat,
      subtree_at path tree = Some (children props) ->
      path = [1; 0; 1] \/
      forall (props' : RootLayoutProps) (w' : World),
        exists tree',
          fst (RootLayout props' w') = Returned tree' /\
          subtree_at path tree' = Some (children props).
Proof.
  do 3 eexists.
  split; [reflexivity|].
  split; [reflexivity|].
  split; [reflexivity|].
  split; [reflexivity|].
  split; [reflexivity|].
  split; [reflexivity|].
  intros path. apply (RootLayout_children_positions props w). reflexivity.
Qed.

(** C8: for every children node and every state of the call, the root of the
    returned tree is an html element whose lang prop is "en". *)
Theorem RootLayout_html_lang_en
    (props : RootLayoutProps) (w : World) :
  exists tree,
    fst (RootLayout props w) = Returned tree /\
    node_type tree = Some (Host "html") /\
    node_prop "lang" tree = Some (PString "en").
Proof. eexists. repeat split. Qed.

(** ** What the layout does with the page as a whole *)

(** The layout has nine nodes of its own. *)
Lemma RootLayout_size (props : RootLayoutProps) (w : World) :
  exists tree,
    fst (RootLayout props w) = Returned tree /\
    size tree = size (children props) + 9.
Proof. eexists. split; [reflexivity|]. simpl. lia. Qed.

(** X1: two calls of RootLayout that return the same tree were given the
    same children: the returned tree determines the page. *)
Theorem RootLayout_injective
    (props1 props2 : RootLayoutProps) (w1 w2 : World) :
  fst (RootLayout props1 w1) = fst (RootLayout props2 w2) ->
  children props1 = children props2.
Proof.
  rewrite !RootLayout_plugs_layout_shell. simpl.
  intro H. injection H as H. exact H.
Qed.

(** X2: every node of the page, at any depth, lies inside the Provider
    element that carries the imported store, which lies inside body, which
    lies inside the html root. *)
Theorem RootLayout_page_inside_Provider
    (props : RootLayoutProps) (w : World) (n : ReactNode) :
  inside n (children props) ->
  exists tree body provider,
    fst (RootLayout props w) = Returned tree /\
    node_type tree = Some (Host "html") /\
    node_type body = Some (Host "body") /\
    node_type provider = Some (Component Provider) /\
    node_prop "store" provider = Some (PImported store) /\
    inside n provider /\
    inside provider body /\
    inside body tree.
Proof.
  intro Hn.
  set (provider :=
         jsx (Component Provider) [("store", PImported store)]
           [ jsx (Component TopNavBar) [] [];
             children props;
             jsx (Component Analytics) [] [] ]).
  eexists. exists (jsx (Host "body") [] [provider]), provider.
  split; [reflexivity|].
  repeat (split; [reflexivity|]).
  split.
  - apply inside_trans with (children props); [exact Hn|].
    apply (subtree_at_inside [1]). reflexivity.
  - split.
    + apply (subtree_at_inside [0]). reflexivity.
    + apply (subtree_at_inside [1]). reflexivity.
Qed.

(** X4: the tree RootLayout returns is never the page it was given, nor any
    node inside that page: the layout always adds its own elements around
    it, also when the page is itself a whole html document. *)
Theorem RootLayout_never_returns_the_page
    (props : RootLayoutProps) (w : World) :
  exists tree,
    fst (RootLayout props w) = Returned tree /\
    ~ inside tree (children props).
Proof.
  destruct (RootLayout_size props w) as [tree [Hret Hsize]].
  exists tree. split; [exact Hret|].
  intro Hin. apply inside_size in Hin. lia.
Qed.

End Layout.

(** ** The theorems at a page *)

(** X1 at two calls with the page [null]. *)
Lemma RootLayout_injective_witness :
  fst (RootLayout unit unit (Build_RootLayoutProps unit (RNull unit)) tt)
    = fst (RootLayout unit unit (Build_RootLayoutProps unit (RNull unit)) tt) /\
  RNull unit = RNull unit.
Proof.
  split; [reflexivity|].
  apply (RootLayout_injective unit unit
           (Build_RootLayoutProps unit (RNull unit))
           (Build_RootLayoutProps unit (RNull unit)) tt tt).
  reflexivity.
Defined.

(** X2 at the text inside a page <main>Home</main>. *)
Lemma RootLayout_page_inside_Provider_witness :
  inside unit (RString unit "Home")
    (jsx unit (Host "main") [] [RString unit "Home"]) /\
  exists tree body provider,
    fst (RootLayout unit unit
           (Build_RootLayoutProps unit
              (jsx unit (Host "main") [] [RString unit "Home"])) tt)
      = @Returned unit _ tree /\
    node_type unit tree = Some (Host "html") /\
    node_type unit body = Some (Host "body") /\
    node_type unit provider = Some (Component Provider) /\
    node_prop unit "store" provider = Some (PImported unit store) /\
    inside unit (RString unit "Home") provider /\
    inside unit provider body /\
    inside unit body tree.
Proof.
  assert (H : inside unit (RString unit "Home")
                (jsx unit (Host "main") [] [RString unit "Home"])).
  { apply (subtree_at_inside unit [0]). reflexivity. }
  split; [exact H|].
  exact (RootLayout_page_inside_Provider unit unit
           (Build_RootLayoutProps unit
              (jsx unit (Host "main") [] [RString unit "Home"]))
           tt (RString unit "Home") H).
Defined.

(** X3 at the title, for the pages [null] and "Home". *)
Lemma RootLayout_frame_witness :
  part_ways [0; 0] [1; 0; 1] = true /\
  exists tree1 tree2,
    fst (RootLayout unit unit (Build_RootLayoutProps unit (RNull unit)) tt)
      = @Returned unit _ tree1 /\
    fst (RootLayout unit unit
           (Build_RootLayoutProps unit (RString unit "Home")) tt)
      = @Returned unit _ tree2 /\
    subtree_at unit [0; 0] tree1 = subtree_at unit [0; 0] tree2.
Proof.
  split; [reflexivity|].
  apply (RootLayout_frame unit unit
           (Build_RootLayoutProps unit (RNull unit))
           (Build_RootLayoutProps unit (RString unit "Home"))
           tt tt [0; 0]).
  reflexivity.
Defined.
